(** * La Bamba Frisbee API: the registrations cache, the credential
      resolver and the photo endpoints of [backend/main.py].

    The handlers are embedded as state-passing functions over a [World]
    that holds what the Python module mutates or observes: the wall clock
    read by [time.time()], the module-global [_cache] dict, the lines
    written through [log.info], and the calls made to the storage and
    spreadsheet services.  The third-party libraries (google-auth,
    googleapiclient, google-cloud-storage, os.path) are interfaces whose
    operations may raise; what a remote service answers to one request is
    an argument of the handler. *)

From Stdlib Require Import ZArith List String Bool Lia.
Import ListNotations.

Local Open Scope string_scope.
Local Open Scope Z_scope.

(** ** Python values used by the module *)

Module Py.

(** [bool(s)] for a [str]: the empty string is falsy. *)
Definition truthy (s : string) : bool := negb (String.eqb s "").

(** [if v:] for the result of [os.getenv(name)], which is [None] or a
    [str]; yields the string when the test succeeds. *)
Definition if_set (v : option string) : option string :=
  match v with
  | Some s => if truthy s then Some s else None
  | None => None
  end.

(** [s.startswith(p)] *)
Definition startswith (s p : string) : bool := String.prefix p s.

(** [s.endswith(p)] *)
Definition endswith (s p : string) : bool :=
  let n := String.length s in
  let m := String.length p in
  (m <=? n)%nat && String.eqb (substring (n - m) m s) p.

(** [len(l)] *)
Definition len {A : Type} (l : list A) : Z := Z.of_nat (List.length l).

(** [x or d] for a [str]-or-[None] operand [x]. *)
Definition or_else (x : option string) (d : string) : string :=
  match if_set x with Some s => s | None => d end.

(** [x or d] for a [str] operand [x]. *)
Definition or_str (x d : string) : string :=
  if truthy x then x else d.

End Py.

(** What a call into a library yields: a value, or an exception, kept as
    its [str(e)]. *)
Inductive Exc (A : Type) : Type :=
| Val (a : A)
| Exn (msg : string).
Arguments Val {A} a.
Arguments Exn {A} msg.

(** What an endpoint yields: the JSON body, or the [HTTPException] it
    raised. *)
Inductive Response (A : Type) : Type :=
| Ok (body : A)
| HTTPException (status_code : Z) (detail : string).
Arguments Ok {A} body.
Arguments HTTPException {A} status_code detail.

Definition status {A : Type} (r : Response A) : Z :=
  match r with
  | Ok _ => 200
  | HTTPException c _ => c
  end.

(** ** Module state and configuration *)

(** The dict built at the end of [registrations]. *)
Record Payload : Type := mkPayload {
  headers : list string;
  rows : list (list string);
  count : Z
}.

(** [_cache: Dict[str, Any] = {"t": 0.0, "data": None}].  The readings of
    [time.time()] are kept as integers, in the unit [TTL] is given in; the
    module only subtracts and compares them. *)
Record Cache : Type := mkCache {
  t : Z;
  data : option Payload
}.

(** Requests that leave the process. *)
Inductive Call : Type :=
| SheetsGet (spreadsheetId range : string)
| StorageClient
| StorageUpload (bucket key content_type : string)
| StorageMakePublic (bucket key : string)
| StorageListBlobs (bucket prefix : string).

Record World : Type := mkWorld {
  clock : Z;
  _cache : Cache;
  log : list string;
  calls : list Call
}.

(** The module-level constants and the process environment they are read
    from.  [TTL] is [30] in the source. *)
Record Config : Type := mkConfig {
  SHEET_ID : string;
  RANGE : string;
  BUCKET_NAME : string;
  TTL : Z;
  GOOGLE_APPLICATION_CREDENTIALS : option string;
  GOOGLE_APPLICATION_CREDENTIALS_B64 : option string;
  GOOGLE_APPLICATION_CREDENTIALS_JSON : option string
}.

Definition SCOPES : list string :=
  ["https://www.googleapis.com/auth/spreadsheets.readonly"].

Definition initial_cache : Cache := {| t := 0; data := None |}.

Definition initial_world (now : Z) : World :=
  {| clock := now; _cache := initial_cache; log := []; calls := [] |}.

(** ** A state monad with exceptions

    Effects persist when an exception is raised, as they do in Python. *)

Definition M (A : Type) : Type := World -> Exc A * World.

Definition ret {A : Type} (a : A) : M A := fun w => (Val a, w).

Definition raise {A : Type} (msg : string) : M A := fun w => (Exn msg, w).

Definition bind {A B : Type} (m : M A) (k : A -> M B) : M B :=
  fun w =>
    match m w with
    | (Val a, w1) => k a w1
    | (Exn e, w1) => (Exn e, w1)
    end.

Definition lift {A : Type} (x : Exc A) : M A := fun w => (x, w).

Declare Scope py_scope.
Delimit Scope py_scope with py.
Notation "x <- m ;; k" := (bind m (fun x => k))
  (at level 100, m at next level, right associativity) : py_scope.
Notation "m ;; k" := (bind m (fun _ => k))
  (at level 100, right associativity) : py_scope.

Definition log_info (line : string) : M unit :=
  fun w => (Val tt, {| clock := clock w; _cache := _cache w;
                       log := log w ++ [line]; calls := calls w |}).

Definition call (c : Call) : M unit :=
  fun w => (Val tt, {| clock := clock w; _cache := _cache w;
                       log := log w; calls := calls w ++ [c] |}).

Definition sleep (d : Z) : M unit :=
  fun w => (Val tt, {| clock := clock w + d; _cache := _cache w;
                       log := log w; calls := calls w |}).

(** [_cache["data"] = v] and [_cache["t"] = v] *)
Definition set_data (v : option Payload) (w : World) : World :=
  {| clock := clock w; _cache := {| t := t (_cache w); data := v |};
     log := log w; calls := calls w |}.

Definition set_t (v : Z) (w : World) : World :=
  {| clock := clock w; _cache := {| t := v; data := data (_cache w) |};
     log := log w; calls := calls w |}.

(** A request arrives when the clock shows [now]. *)
Definition arrive (now : Z) (w : World) : World :=
  {| clock := now; _cache := _cache w; log := log w; calls := calls w |}.

(** ** The Google client libraries *)

Class GoogleLibs : Type := {
  Json : Type;
  Credentials : Type;
  Service : Type;
  (** [Credentials.from_service_account_file(path, scopes=...)] *)
  from_service_account_file : string -> list string -> Exc Credentials;
  (** [base64.b64decode(s).decode("utf-8")] *)
  b64decode_utf8 : string -> Exc string;
  (** [json.loads(s)] *)
  json_loads : string -> Exc Json;
  (** [Credentials.from_service_account_info(info, scopes=...)] *)
  from_service_account_info : Json -> list string -> Exc Credentials;
  (** [build(name, version, credentials=...)] *)
  build : string -> string -> Credentials -> Exc Service
}.

(** The body of the reply of [spreadsheets().values().get(...)]: the
    ["values"] key is absent when the range holds no data. *)
Record Resp : Type := mkResp {
  values : option (list (list string))
}.

(** What the spreadsheet service does with one [execute()]: how long the
    round trip takes and what comes back. *)
Record Sheets : Type := mkSheets {
  latency : Z;
  reply : Exc Resp
}.

Section Registrations.

Context {G : GoogleLibs}.
Variable cfg : Config.

Local Open Scope py_scope.

Definition sheets_service : M Service :=
  (* 1) File path *)
  match Py.if_set (GOOGLE_APPLICATION_CREDENTIALS cfg) with
  | Some creds_file =>
      log_info ("Using credentials file: " ++ creds_file) ;;
      creds <- lift (from_service_account_file creds_file SCOPES) ;;
      lift (build "sheets" "v4" creds)
  | None =>
  (* 2) Base64 *)
  match Py.if_set (GOOGLE_APPLICATION_CREDENTIALS_B64 cfg) with
  | Some creds_b64 =>
      log_info "Using base64 credentials from env" ;;
      text <- lift (b64decode_utf8 creds_b64) ;;
      info <- lift (json_loads text) ;;
      creds <- lift (from_service_account_info info SCOPES) ;;
      lift (build "sheets" "v4" creds)
  | None =>
  (* 3) Inline JSON *)
  match Py.if_set (GOOGLE_APPLICATION_CREDENTIALS_JSON cfg) with
  | Some creds_json =>
      log_info "Using inline JSON credentials from env" ;;
      info <- lift (json_loads creds_json) ;;
      creds <- lift (from_service_account_info info SCOPES) ;;
      lift (build "sheets" "v4" creds)
  | None =>
      raise "No Google credentials provided"
  end end end.

(** [svc.get(spreadsheetId=..., range=...).execute()] *)
Definition execute (up : Sheets) (spreadsheetId range : string) : M Resp :=
  call (SheetsGet spreadsheetId range) ;;
  sleep (latency up) ;;
  lift (reply up).

(** The body of the [try] block: the list bound to [values]. *)
Definition fetch_values (up : Sheets) : M (list (list string)) :=
  _svc <- sheets_service ;;
  resp <- execute up (SHEET_ID cfg) (RANGE cfg) ;;
  ret (match values resp with Some v => v | None => [] end).

Definition empty_shape : Payload :=
  {| headers := []; rows := []; count := 0 |}.

(** Lines 142-147: the dict built from [values]. *)
Definition shape (values : list (list string)) : Payload :=
  match values with
  | [] => empty_shape
  | headers :: rows =>
      {| headers := headers; rows := rows; count := Py.len rows |}
  end.

(** [_cache["data"] and now - _cache["t"] < TTL]: the dict to serve when
    the test succeeds.  A stored dict has three keys, so it is truthy. *)
Definition cached (now : Z) (c : Cache) : option Payload :=
  match data c with
  | Some d => if now - t c <? TTL cfg then Some d else None
  | None => None
  end.

(** Lines 135-151: the upstream read and the cache update. *)
Definition refresh (up : Sheets) (now : Z) (w : World)
  : Response Payload * World :=
  match fetch_values up w with
  | (Exn e, w1) => (HTTPException 502 ("Sheets fetch failed: " ++ e), w1)
  | (Val values, w1) =>
      let out := shape values in
      (Ok out, set_t now (set_data (Some out) w1))
  end.

Definition registrations (up : Sheets) (w : World)
  : Response Payload * World :=
  if negb (Py.truthy (SHEET_ID cfg)) then (Ok empty_shape, w)
  else
    let now := clock w in
    match cached now (_cache w) with
    | Some d => (Ok d, w)
    | None => refresh up now w
    end.

(** A sequence of requests, each with the clock reading at its arrival
    and the behaviour of the spreadsheet service at that moment. *)
Fixpoint serve (reqs : list (Z * Sheets)) (w : World)
  : list (Response Payload) * World :=
  match reqs with
  | [] => ([], w)
  | (now, up) :: rest =>
      let (r, w1) := registrations up (arrive now w) in
      let (rs, w2) := serve rest w1 in
      (r :: rs, w2)
  end.

End Registrations.

(** ** The photo endpoints *)

(** The parts of an [UploadFile] the handler reads. *)
Record UploadFile : Type := mkUploadFile {
  filename : option string;
  content_type : option string;
  contents : string
}.

(** What [bucket.list_blobs(prefix=...)] yields when it is iterated: the
    names of the blobs, page after page, unless a page fails to load. *)
Inductive Blobs : Type :=
| Done
| Blob (name : string) (rest : Blobs)
| Broken (msg : string).

(** What the storage service does during one request. *)
Record Storage : Type := mkStorage {
  client : Exc unit;
  upload_from_string : Exc unit;
  make_public : Exc unit;
  public_url : string -> string -> string;
  list_blobs : Blobs
}.

(** [os.path.splitext(p)[1]] and [str.lower]. *)
Class OsLibs : Type := {
  splitext_ext : string -> string;
  lower : string -> string
}.

Record Uploaded : Type := mkUploaded {
  up_ok : bool;
  up_url : string;
  up_key : string
}.

Record Listing : Type := mkListing {
  ok : bool;
  photos : list string
}.

Section Photos.

Context {O : OsLibs}.
Variable cfg : Config.

Local Open Scope py_scope.

Definition gcs_client (st : Storage) : M unit :=
  call StorageClient ;; lift (client st).

(** [file.content_type and file.content_type.startswith("image/")] *)
Definition is_image (file : UploadFile) : bool :=
  match Py.if_set (content_type file) with
  | Some ct => Py.startswith ct "image/"
  | None => false
  end.

(** [today] is [datetime.utcnow().strftime('%Y/%m/%d')] and [uuid_hex] is
    [uuid.uuid4().hex] at the time of the request. *)
Definition upload_photo (st : Storage) (today uuid_hex : string)
  (file : UploadFile) (w : World) : Response Uploaded * World :=
  if negb (Py.truthy (BUCKET_NAME cfg)) then
    (HTTPException 500 "PHOTOS_BUCKET not set", w)
  else if negb (is_image file) then
    (HTTPException 400 "Only image uploads allowed", w)
  else
    let ext :=
      Py.or_str (lower (splitext_ext (Py.or_else (filename file) ""))) ".jpg" in
    let key := "uploads/" ++ today ++ "/" ++ uuid_hex ++ ext in
    let ct := Py.or_else (content_type file) "" in
    match (gcs_client st ;;
           call (StorageUpload (BUCKET_NAME cfg) key ct) ;;
           lift (upload_from_string st) ;;
           call (StorageMakePublic (BUCKET_NAME cfg) key) ;;
           lift (make_public st) ;;
           ret {| up_ok := true;
                  up_url := public_url st (BUCKET_NAME cfg) key;
                  up_key := key |}) w with
    | (Val out, w1) => (Ok out, w1)
    | (Exn e, w1) => (HTTPException 500 ("Upload failed: " ++ e), w1)
    end.

(** [f"https://storage.googleapis.com/{BUCKET_NAME}/{b.name}"] *)
Definition photo_url (name : string) : string :=
  "https://storage.googleapis.com/" ++ BUCKET_NAME cfg ++ "/" ++ name.

(** The [for] loop of [list_photos], started with the list [urls]. *)
Fixpoint collect (limit : Z) (blobs : Blobs) (urls : list string)
  : Exc (list string) :=
  match blobs with
  | Done => Val urls
  | Broken e => Exn e
  | Blob name rest =>
      if Py.endswith name "/" then collect limit rest urls
      else
        let urls := app urls [photo_url name] in
        if Py.len urls >=? limit then Val urls
        else collect limit rest urls
  end.

Definition list_photos (st : Storage) (limit : Z) (w : World)
  : Response Listing * World :=
  if negb (Py.truthy (BUCKET_NAME cfg)) then
    (HTTPException 500 "PHOTOS_BUCKET not set", w)
  else
    match (gcs_client st ;;
           call (StorageListBlobs (BUCKET_NAME cfg) "uploads/") ;;
           urls <- lift (collect limit (list_blobs st) []) ;;
           ret {| ok := true; photos := urls |}) w with
    | (Val out, w1) => (Ok out, w1)
    | (Exn e, w1) => (HTTPException 500 ("List failed: " ++ e), w1)
    end.

(** [limit: int = 60] *)
Definition default_limit : Z := 60.

End Photos.

(** The names of the blobs a listing yields before it ends or breaks. *)
Fixpoint blob_names (blobs : Blobs) : list string :=
  match blobs with
  | Done | Broken _ => []
  | Blob name rest => name :: blob_names rest
  end.

(** The names that are not "directory" entries. *)
Definition files (names : list string) : list string :=
  filter (fun name => negb (Py.endswith name "/")) names.

(** ** The credential sources, as the specification names them *)

Inductive CredentialSource : Type :=
| FilePath (path : string)
| Base64Blob (blob : string)
| InlineJSON (text : string).

Section Resolver.

Context {G : GoogleLibs}.

(** The client a service-account description gives. *)
Definition client_from_info (text : string) : Exc Service :=
  match json_loads text with
  | Exn e => Exn e
  | Val info =>
      match from_service_account_info info SCOPES with
      | Exn e => Exn e
      | Val creds => build "sheets" "v4" creds
      end
  end.

(** The client built from one source alone; a source that cannot be read
    or parsed gives the exception of the step that failed. *)
Definition client_from (src : CredentialSource) : Exc Service :=
  match src with
  | FilePath path =>
      match from_service_account_file path SCOPES with
      | Exn e => Exn e
      | Val creds => build "sheets" "v4" creds
      end
  | Base64Blob blob =>
      match b64decode_utf8 blob with
      | Exn e => Exn e
      | Val text => client_from_info text
      end
  | InlineJSON text => client_from_info text
  end.

(** The line [sheets_service] logs when it picks a source. *)
Definition announce (src : CredentialSource) : string :=
  match src with
  | FilePath path => "Using credentials file: " ++ path
  | Base64Blob _ => "Using base64 credentials from env"
  | InlineJSON _ => "Using inline JSON credentials from env"
  end.

End Resolver.

Definition logged (line : string) (w : World) : World :=
  {| clock := clock w; _cache := _cache w;
     log := log w ++ [line]; calls := calls w |}.

(** ** Sample libraries, configurations and services *)

Module Sample.

(** A service account at [/secrets/sa.json]; JSON texts are the strings
    that open a brace; the blob ["e30="] decodes to the empty object. *)
Definition libs : GoogleLibs := {|
  Json := string;
  Credentials := string;
  Service := string;
  from_service_account_file path _ :=
    if String.eqb path "/secrets/sa.json" then Val "sa" else Exn "No such file";
  b64decode_utf8 s :=
    if String.eqb s "e30=" then Val "{}" else Exn "Incorrect padding";
  json_loads s :=
    if String.prefix "{" s then Val s else Exn "Expecting value";
  from_service_account_info info _ := Val info;
  build _ _ creds := Val creds
|}.

Definition os : OsLibs := {|
  splitext_ext p := if Py.endswith p ".PNG" then ".PNG" else "";
  lower s := if String.eqb s ".PNG" then ".png" else s
|}.

Definition cfg : Config := {|
  SHEET_ID := "sheet-1";
  RANGE := "Form Responses 1!A1:Z";
  BUCKET_NAME := "labamba-photos";
  TTL := 30;
  GOOGLE_APPLICATION_CREDENTIALS := Some "/secrets/sa.json";
  GOOGLE_APPLICATION_CREDENTIALS_B64 := Some "e30=";
  GOOGLE_APPLICATION_CREDENTIALS_JSON := None
|}.

(** Nothing is configured. *)
Definition bare : Config := {|
  SHEET_ID := "";
  RANGE := "Form Responses 1!A1:Z";
  BUCKET_NAME := "";
  TTL := 30;
  GOOGLE_APPLICATION_CREDENTIALS := None;
  GOOGLE_APPLICATION_CREDENTIALS_B64 := None;
  GOOGLE_APPLICATION_CREDENTIALS_JSON := None
|}.

Definition table : list (list string) :=
  [["Name"; "Age"]; ["Ada"; "30"]; ["Li"; "25"]].

(** The sheet answers with [table] after five seconds. *)
Definition sheet : Sheets :=
  {| latency := 5; reply := Val {| values := Some table |} |}.

Definition blank_sheet : Sheets :=
  {| latency := 1; reply := Val {| values := None |} |}.

Definition sheet_down : Sheets :=
  {| latency := 2; reply := Exn "HttpError 503" |}.

Definition bucket (blobs : Blobs) : Storage := {|
  client := Val tt;
  upload_from_string := Val tt;
  make_public := Val tt;
  public_url b k := "https://storage.googleapis.com/" ++ b ++ "/" ++ k;
  list_blobs := blobs
|}.

Definition note : UploadFile :=
  {| filename := Some "notes.txt"; content_type := Some "text/plain";
     contents := "hello" |}.

(** The process starts and the first request arrives at second 100. *)
Definition start : World := initial_world 100.

Definition first : Response Payload * World :=
  registrations (G := libs) cfg sheet start.

Definition two_photos : Blobs :=
  Blob "uploads/" (Blob "uploads/a.jpg" (Blob "uploads/b.jpg" Done)).

End Sample.

(** The exception that ends the listing, when a page fails to load. *)
Fixpoint broken (blobs : Blobs) : option string :=
  match blobs with
  | Done => None
  | Blob _ rest => broken rest
  | Broken e => Some e
  end.

(** The requests a handler added to those already sent. *)
Definition sent (l : list Call) (w w1 : World) : Prop :=
  calls w1 = (calls w ++ l)%list.

(** ** The health endpoints *)

Record Health : Type := mkHealth {
  health_ok : bool
}.

Definition health : Health := {| health_ok := true |}.

Definition api_health : Health := {| health_ok := true |}.

(** ** The checkout endpoint

    The handler reads and writes none of the module state above; the
    requests it sends to the payment provider are returned with its
    answer. *)

(** [class CheckoutIn(BaseModel)] *)
Record CheckoutIn : Type := mkCheckoutIn {
  amount_sek : Z;
  description : option string
}.

(** [stripe.api_key] and the redirect targets, as the environment gives
    them. *)
Record ShopConfig : Type := mkShopConfig {
  STRIPE_SECRET_KEY : option string;
  CHECKOUT_SUCCESS_URL : option string;
  CHECKOUT_CANCEL_URL : option string
}.

(** One entry of [line_items]. *)
Record LineItem : Type := mkLineItem {
  currency : string;
  product_name : string;
  unit_amount : Z;
  quantity : Z
}.

(** The keyword arguments of [stripe.checkout.Session.create]. *)
Record SessionCreate : Type := mkSessionCreate {
  mode : string;
  payment_method_types : list string;
  line_items : list LineItem;
  success_url : string;
  cancel_url : string
}.

Record CheckoutOut : Type := mkCheckoutOut {
  sessionId : string
}.

(** [os.getenv(name, default)]: the default stands in only for a variable
    that is not set. *)
Definition getenv_default (v : option string) (default : string) : string :=
  match v with
  | Some s => s
  | None => default
  end.

(** [stripe] is what the provider does with a request: the ["id"] of the
    session it creates, or the exception it raises. *)
Definition create_checkout_session (shop : ShopConfig)
  (stripe : SessionCreate -> Exc string) (body : CheckoutIn)
  : Response CheckoutOut * list SessionCreate :=
  match Py.if_set (STRIPE_SECRET_KEY shop) with
  | None => (HTTPException 500 "Stripe not configured", [])
  | Some _ =>
      let amount_ore := amount_sek body * 100 in
      let request :=
        {| mode := "payment";
           payment_method_types := ["card"];
           line_items :=
             [{| currency := "sek";
                 product_name := Py.or_else (description body) "Gothrow payment";
                 unit_amount := amount_ore;
                 quantity := 1 |}];
           success_url :=
             getenv_default (CHECKOUT_SUCCESS_URL shop)
               "https://labambafrisbee.se/gothrow?paid=1";
           cancel_url :=
             getenv_default (CHECKOUT_CANCEL_URL shop)
               "https://labambafrisbee.se/gothrow?canceled=1" |} in
      match stripe request with
      | Val id => (Ok {| sessionId := id |}, [request])
      | Exn e => (HTTPException 502 ("Stripe error: " ++ e), [request])
      end
  end.

(** ** More sample data *)

Module Fixtures.

(** Only the base64 blob is set; the file variable is set but empty. *)
Definition blob_only : Config := {|
  SHEET_ID := "sheet-1";
  RANGE := "Form Responses 1!A1:Z";
  BUCKET_NAME := "labamba-photos";
  TTL := 30;
  GOOGLE_APPLICATION_CREDENTIALS := Some "";
  GOOGLE_APPLICATION_CREDENTIALS_B64 := Some "e30=";
  GOOGLE_APPLICATION_CREDENTIALS_JSON := None
|}.


(** A spreadsheet id but no credentials at all. *)
Definition no_credentials : Config := {|
  SHEET_ID := "sheet-1";
  RANGE := "Form Responses 1!A1:Z";
  BUCKET_NAME := "labamba-photos";
  TTL := 30;
  GOOGLE_APPLICATION_CREDENTIALS := None;
  GOOGLE_APPLICATION_CREDENTIALS_B64 := Some "";
  GOOGLE_APPLICATION_CREDENTIALS_JSON := None
|}.

(** A listing whose second page fails after two photos. *)
Definition flaky : Blobs :=
  Blob "uploads/" (Blob "uploads/a.jpg" (Blob "uploads/b.jpg"
    (Broken "503 Service Unavailable"))).

(** A bucket that stores objects but refuses to publish them. *)
Definition private_bucket : Storage := {|
  client := Val tt;
  upload_from_string := Val tt;
  make_public := Exn "403 Forbidden";
  public_url b k := "https://storage.googleapis.com/" ++ b ++ "/" ++ k;
  list_blobs := Done
|}.

Definition picture : UploadFile :=
  {| filename := Some "Team.PNG"; content_type := Some "image/png";
     contents := "..." |}.

(** An image sent without a file name. *)
Definition unnamed : UploadFile :=
  {| filename := None; content_type := Some "image/jpeg";
     contents := "..." |}.

Definition shop : ShopConfig := {|
  STRIPE_SECRET_KEY := Some "sk_test_1";
  CHECKOUT_SUCCESS_URL := None;
  CHECKOUT_CANCEL_URL := Some ""
|}.

(** The provider refuses amounts below one krona. *)
Definition stripe (request : SessionCreate) : Exc string :=
  match line_items request with
  | [item] =>
      if 100 <=? unit_amount item then Val "cs_test_1"
      else Exn "Invalid positive integer"
  | _ => Exn "Invalid array"
  end.

End Fixtures.

(** ** The invariant of the payloads *)

Definition well_formed (p : Payload) : Prop := count p = Py.len (rows p).

Definition cache_ok (c : Cache) : Prop :=
  forall p, data c = Some p -> well_formed p.

Definition answer_ok (r : Response Payload) : Prop :=
  match r with
  | Ok p => well_formed p
  | HTTPException _ _ => True
  end.

(** * Properties *)

Ltac unfold_m :=
  unfold bind, ret, lift, raise, log_info, call, sleep in *.

Ltac break_match :=
  match goal with
  | H : context [match ?x with _ => _ end] |- _ => destruct x eqn:?
  | |- context [match ?x with _ => _ end] => destruct x eqn:?
  end.

Ltac pair_inv :=
  repeat match goal with
  | H : (_, _) = (_, _) |- _ => inversion H; subst; clear H
  end.

(** ** The credential resolver *)

Section ResolverSpec.

Context {G : GoogleLibs}.
Variable cfg : Config.

Lemma sheets_service_frame (w w1 : World) (r : Exc Service) :
  sheets_service cfg w = (r, w1) ->
  clock w1 = clock w /\ _cache w1 = _cache w /\ calls w1 = calls w.
Proof.
  unfold sheets_service; unfold_m; intros H.
  repeat break_match; pair_inv; simpl; auto.
Qed.

Lemma sheets_service_picks (w : World) (src : CredentialSource) :
  match src with
  | FilePath path =>
      Py.if_set (GOOGLE_APPLICATION_CREDENTIALS cfg) = Some path
  | Base64Blob blob =>
      Py.if_set (GOOGLE_APPLICATION_CREDENTIALS cfg) = None /\
      Py.if_set (GOOGLE_APPLICATION_CREDENTIALS_B64 cfg) = Some blob
  | InlineJSON text =>
      Py.if_set (GOOGLE_APPLICATION_CREDENTIALS cfg) = None /\
      Py.if_set (GOOGLE_APPLICATION_CREDENTIALS_B64 cfg) = None /\
      Py.if_set (GOOGLE_APPLICATION_CREDENTIALS_JSON cfg) = Some text
  end ->
  sheets_service cfg w = (client_from src, logged (announce src) w).
Proof.
  unfold sheets_service, client_from, client_from_info, logged; unfold_m.
  destruct src as [path | blob | text]; simpl.
  - intros ->. destruct (from_service_account_file path SCOPES); reflexivity.
  - intros [-> ->]. destruct (b64decode_utf8 blob) as [text | e]; [ | reflexivity ].
    destruct (json_loads text) as [info | e]; [ | reflexivity ].
    destruct (from_service_account_info info SCOPES); reflexivity.
  - intros (-> & -> & ->).
    destruct (json_loads text) as [info | e]; [ | reflexivity ].
    destruct (from_service_account_info info SCOPES); reflexivity.
Qed.

(** C5.  [sheets_service] looks at the file path, then at the base64
    blob, then at the inline JSON, where a variable that is unset or empty
    counts as absent.  It builds the client from the first one present and
    from that one alone: the outcome, also when that source cannot be
    parsed, is the outcome of that source, whatever the later variables
    hold, and one line is logged for it.  With none present it raises
    "No Google credentials provided". *)
Theorem sheets_service_priority (w : World) :
  sheets_service cfg w =
    match Py.if_set (GOOGLE_APPLICATION_CREDENTIALS cfg),
          Py.if_set (GOOGLE_APPLICATION_CREDENTIALS_B64 cfg),
          Py.if_set (GOOGLE_APPLICATION_CREDENTIALS_JSON cfg) with
    | Some path, _, _ =>
        (client_from (FilePath path), logged (announce (FilePath path)) w)
    | None, Some blob, _ =>
        (client_from (Base64Blob blob), logged (announce (Base64Blob blob)) w)
    | None, None, Some text =>
        (client_from (InlineJSON text), logged (announce (InlineJSON text)) w)
    | None, None, None =>
        (Exn "No Google credentials provided", w)
    end.
Proof.
  destruct (Py.if_set (GOOGLE_APPLICATION_CREDENTIALS cfg)) as [path | ] eqn:Hf.
  { apply sheets_service_picks; exact Hf. }
  destruct (Py.if_set (GOOGLE_APPLICATION_CREDENTIALS_B64 cfg)) as [blob | ] eqn:Hb.
  { apply sheets_service_picks; split; assumption. }
  destruct (Py.if_set (GOOGLE_APPLICATION_CREDENTIALS_JSON cfg)) as [text | ] eqn:Hj.
  { apply sheets_service_picks; repeat split; assumption. }
  unfold sheets_service. rewrite Hf, Hb, Hj. reflexivity.
Qed.

End ResolverSpec.

(** ** The registrations cache *)

Section RegistrationsSpec.

Context {G : GoogleLibs}.
Variable cfg : Config.

Lemma cached_inv (now : Z) (c : Cache) (d : Payload) :
  cached cfg now c = Some d <-> data c = Some d /\ now - t c < TTL cfg.
Proof.
  unfold cached. destruct (data c) as [p | ].
  - destruct (Z.ltb_spec (now - t c) (TTL cfg)); split.
    + intros [= ->]; auto.
    + intros [[= ->] _]; reflexivity.
    + discriminate.
    + intros [_ ?]; lia.
  - split; [ discriminate | intros [? _]; discriminate ].
Qed.

Lemma cached_expired (now : Z) (c : Cache) :
  TTL cfg <= now - t c -> cached cfg now c = None.
Proof.
  intros H. unfold cached. destruct (data c); [ | reflexivity ].
  destruct (Z.ltb_spec (now - t c) (TTL cfg)); [ lia | reflexivity ].
Qed.

Lemma registrations_hit (up : Sheets) (w : World) (d : Payload) :
  Py.truthy (SHEET_ID cfg) = true ->
  cached cfg (clock w) (_cache w) = Some d ->
  registrations cfg up w = (Ok d, w).
Proof.
  intros Hid Hc. unfold registrations. rewrite Hid, Hc. reflexivity.
Qed.

Lemma registrations_miss (up : Sheets) (w : World) :
  Py.truthy (SHEET_ID cfg) = true ->
  cached cfg (clock w) (_cache w) = None ->
  registrations cfg up w = refresh cfg up (clock w) w.
Proof.
  intros Hid Hc. unfold registrations. rewrite Hid, Hc. reflexivity.
Qed.

Lemma execute_frame (up : Sheets) (id range : string) (w w1 : World)
  (r : Exc Resp) :
  execute up id range w = (r, w1) ->
  r = reply up /\
  clock w1 = clock w + latency up /\
  _cache w1 = _cache w /\
  calls w1 = (calls w ++ [SheetsGet id range])%list.
Proof.
  unfold execute; unfold_m; simpl. intros H; pair_inv; simpl; auto.
Qed.

Lemma fetch_values_cache (up : Sheets) (w w1 : World)
  (r : Exc (list (list string))) :
  fetch_values cfg up w = (r, w1) -> _cache w1 = _cache w.
Proof.
  unfold fetch_values, bind at 1. intros H.
  destruct (sheets_service cfg w) as [[svc | e] w0] eqn:Hs;
    apply sheets_service_frame in Hs; destruct Hs as (_ & Hc & _).
  - unfold bind at 1 in H.
    destruct (execute up (SHEET_ID cfg) (RANGE cfg) w0) as [[resp | e] w2] eqn:He;
      apply execute_frame in He; destruct He as (_ & _ & Hc2 & _);
      unfold ret in H; pair_inv; congruence.
  - pair_inv; exact Hc.
Qed.

(** A read that succeeds went to the spreadsheet service once and took
    its latency. *)
Lemma fetch_values_val (up : Sheets) (w w1 : World)
  (vals : list (list string)) :
  fetch_values cfg up w = (Val vals, w1) ->
  clock w1 = clock w + latency up /\
  calls w1 = (calls w ++ [SheetsGet (SHEET_ID cfg) (RANGE cfg)])%list.
Proof.
  unfold fetch_values, bind at 1. intros H.
  destruct (sheets_service cfg w) as [[svc | e] w0] eqn:Hs;
    apply sheets_service_frame in Hs; destruct Hs as (Hk & _ & Hl);
    [ | discriminate ].
  unfold bind at 1 in H.
  destruct (execute up (SHEET_ID cfg) (RANGE cfg) w0) as [[resp | e] w2] eqn:He;
    apply execute_frame in He; destruct He as (_ & Hk2 & _ & Hl2);
    unfold ret in H; [ | discriminate ].
  pair_inv. split; congruence.
Qed.

(** With a client at hand, the read is what the service replies, an absent
    ["values"] key reading as the empty list. *)
Lemma fetch_values_reply (up : Sheets) (w w0 : World) (svc : Service) :
  sheets_service cfg w = (Val svc, w0) ->
  exists w1,
    fetch_values cfg up w =
      (match reply up with
       | Val resp => Val (match values resp with Some v => v | None => [] end)
       | Exn e => Exn e
       end, w1) /\
    calls w1 = (calls w ++ [SheetsGet (SHEET_ID cfg) (RANGE cfg)])%list.
Proof.
  intros Hs. unfold fetch_values, bind at 1. rewrite Hs.
  apply sheets_service_frame in Hs. destruct Hs as (_ & _ & Hl).
  unfold execute; unfold_m; simpl.
  destruct (reply up) as [resp | e]; eexists; split; try reflexivity;
    simpl; congruence.
Qed.

Lemma refresh_ok (up : Sheets) (now : Z) (w w1 : World)
  (vals : list (list string)) :
  fetch_values cfg up w = (Val vals, w1) ->
  refresh cfg up now w =
    (Ok (shape vals), set_t now (set_data (Some (shape vals)) w1)).
Proof. intros H. unfold refresh. rewrite H. reflexivity. Qed.

Lemma refresh_error (up : Sheets) (now : Z) (w w1 : World) (e : string) :
  fetch_values cfg up w = (Exn e, w1) ->
  refresh cfg up now w =
    (HTTPException 502 ("Sheets fetch failed: " ++ e), w1).
Proof. intros H. unfold refresh. rewrite H. reflexivity. Qed.

(** A successful answer of a configured endpoint is what the cache holds
    afterwards. *)
Lemma registrations_ok_stored (up : Sheets) (w w1 : World) (v : Payload) :
  Py.truthy (SHEET_ID cfg) = true ->
  registrations cfg up w = (Ok v, w1) ->
  data (_cache w1) = Some v.
Proof.
  intros Hid H. unfold registrations in H. rewrite Hid in H. simpl in H.
  destruct (cached cfg (clock w) (_cache w)) as [d | ] eqn:Hc.
  - pair_inv. apply cached_inv in Hc. tauto.
  - unfold refresh in H.
    destruct (fetch_values cfg up w) as [[vals | e] w2]; [ | discriminate ].
    pair_inv. reflexivity.
Qed.

(** C1, amended.  After a call that answered with [v], a call that
    arrives while the clock is less than [TTL] past the stored timestamp,
    which is the arrival time of the request that made the last successful
    refresh, answers with the same [v] and leaves the world as it found
    it: no request is sent to the spreadsheet service, whatever it would
    have replied.  This holds for every [TTL], so for every positive
    one. *)
Theorem registrations_fresh_hit (up1 up2 : Sheets) (w w1 : World)
  (v : Payload) (now2 : Z) :
  Py.truthy (SHEET_ID cfg) = true ->
  registrations cfg up1 w = (Ok v, w1) ->
  now2 - t (_cache w1) < TTL cfg ->
  registrations cfg up2 (arrive now2 w1) = (Ok v, arrive now2 w1) /\
  calls (snd (registrations cfg up2 (arrive now2 w1))) = calls w1.
Proof.
  intros Hid H1 Hfresh.
  assert (Hhit : registrations cfg up2 (arrive now2 w1) = (Ok v, arrive now2 w1)).
  { apply registrations_hit; [ exact Hid | ].
    apply cached_inv. simpl. split; [ | exact Hfresh ].
    eapply registrations_ok_stored; eassumption. }
  split; [ exact Hhit | rewrite Hhit; reflexivity ].
Qed.

(** C2.  When the cache cannot answer and the upstream read raises, the
    caller gets HTTP 502 with the exception's text, and the cache, value
    and timestamp, is as it was before the call. *)
Theorem registrations_refresh_failure (up : Sheets) (w w1 : World)
  (e : string) :
  Py.truthy (SHEET_ID cfg) = true ->
  cached cfg (clock w) (_cache w) = None ->
  fetch_values cfg up w = (Exn e, w1) ->
  registrations cfg up w =
    (HTTPException 502 ("Sheets fetch failed: " ++ e), w1) /\
  _cache w1 = _cache w.
Proof.
  intros Hid Hc Hf. split.
  - rewrite registrations_miss by assumption. apply refresh_error, Hf.
  - eapply fetch_values_cache, Hf.
Qed.

(** C3.  When the clock is exactly [TTL] past the stored timestamp the
    cached branch is not taken: the call is the refresh, and once a client
    is resolved the read request goes out. *)
Theorem registrations_boundary_refresh (up : Sheets) (w : World) :
  Py.truthy (SHEET_ID cfg) = true ->
  clock w - t (_cache w) = TTL cfg ->
  cached cfg (clock w) (_cache w) = None /\
  registrations cfg up w = refresh cfg up (clock w) w /\
  (forall svc w0,
      sheets_service cfg w = (Val svc, w0) ->
      calls (snd (registrations cfg up w)) =
        (calls w ++ [SheetsGet (SHEET_ID cfg) (RANGE cfg)])%list).
Proof.
  intros Hid Hb.
  assert (Hc : cached cfg (clock w) (_cache w) = None)
    by (apply cached_expired; lia).
  split; [ exact Hc | ]. split; [ apply registrations_miss; assumption | ].
  intros svc w0 Hs. rewrite registrations_miss by assumption.
  destruct (fetch_values_reply up w w0 svc Hs) as (w1 & Hf & Hl).
  unfold refresh. rewrite Hf.
  destruct (reply up); simpl; exact Hl.
Qed.

(** C4, amended.  A successful refresh replaces the stored value and the
    stored timestamp; the timestamp is the clock reading taken when the
    request arrived, before the read, which itself ends [latency] later. *)
Theorem registrations_refresh_success (up : Sheets) (w w1 : World)
  (vals : list (list string)) :
  Py.truthy (SHEET_ID cfg) = true ->
  cached cfg (clock w) (_cache w) = None ->
  fetch_values cfg up w = (Val vals, w1) ->
  exists w2,
    registrations cfg up w = (Ok (shape vals), w2) /\
    _cache w2 = {| t := clock w; data := Some (shape vals) |} /\
    clock w2 = clock w + latency up.
Proof.
  intros Hid Hc Hf. eexists. split; [ | split ].
  - rewrite registrations_miss by assumption. apply refresh_ok, Hf.
  - reflexivity.
  - simpl. apply fetch_values_val in Hf. tauto.
Qed.

(** C6.  Without a spreadsheet id the answer is the empty shape, a
    success, and the world is untouched: nothing is logged, no request is
    sent, the cache is not written, whatever the credential variables and
    the libraries are. *)
Theorem registrations_disabled (up : Sheets) (w : World) :
  SHEET_ID cfg = "" ->
  registrations cfg up w = (Ok empty_shape, w).
Proof.
  intros Hid. unfold registrations. rewrite Hid. reflexivity.
Qed.

Lemma shape_well_formed (vals : list (list string)) : well_formed (shape vals).
Proof. destruct vals; reflexivity. Qed.

Lemma registrations_invariant (up : Sheets) (w w1 : World)
  (r : Response Payload) :
  cache_ok (_cache w) ->
  registrations cfg up w = (r, w1) ->
  answer_ok r /\ cache_ok (_cache w1).
Proof.
  intros Hinv H. unfold registrations in H.
  destruct (negb (Py.truthy (SHEET_ID cfg))).
  { pair_inv. split; [ reflexivity | exact Hinv ]. }
  simpl in H.
  destruct (cached cfg (clock w) (_cache w)) as [d | ] eqn:Hc.
  { pair_inv. split; [ | exact Hinv ].
    apply cached_inv in Hc. apply Hinv, Hc. }
  unfold refresh in H.
  destruct (fetch_values cfg up w) as [[vals | e] w2] eqn:Hf; pair_inv.
  - split; [ apply shape_well_formed | ].
    intros p [= <-]. apply shape_well_formed.
  - split; [ exact I | ].
    rewrite (fetch_values_cache _ _ _ _ Hf). exact Hinv.
Qed.

Lemma serve_invariant (reqs : list (Z * Sheets)) :
  forall w, cache_ok (_cache w) -> Forall answer_ok (fst (serve cfg reqs w)).
Proof.
  induction reqs as [ | [now up] rest IH]; intros w Hinv; simpl.
  - constructor.
  - destruct (registrations cfg up (arrive now w)) as [r w1] eqn:H1.
    apply registrations_invariant in H1; [ | exact Hinv ].
    destruct H1 as [Hr Hinv1]. specialize (IH w1 Hinv1).
    destruct (serve cfg rest w1) as [rs w2]. simpl in *.
    constructor; assumption.
Qed.

(** C7.  A refresh that reads a non-empty list of rows answers with the
    first row as headers, the rows after it as rows and their number as
    count; every answer of every sequence of requests served from the
    start of the process has [count = len(rows)]; and the three-row table
    of the specification gives count 2. *)
Theorem registrations_shape :
  (forall up w w1 h rest,
      Py.truthy (SHEET_ID cfg) = true ->
      cached cfg (clock w) (_cache w) = None ->
      fetch_values cfg up w = (Val (h :: rest), w1) ->
      fst (registrations cfg up w) =
        Ok {| headers := h; rows := rest; count := Py.len rest |}) /\
  (forall reqs now,
      Forall answer_ok (fst (serve cfg reqs (initial_world now)))) /\
  shape [["Name"; "Age"]; ["Ada"; "30"]; ["Li"; "25"]] =
    {| headers := ["Name"; "Age"];
       rows := [["Ada"; "30"]; ["Li"; "25"]];
       count := 2 |}.
Proof.
  split; [ | split ].
  - intros up w w1 h rest Hid Hc Hf.
    rewrite registrations_miss by assumption.
    rewrite (refresh_ok _ _ _ _ _ Hf). reflexivity.
  - intros reqs now. apply serve_invariant. intros p; discriminate.
  - reflexivity.
Qed.

Lemma serve_hits (d : Payload) (later : list (Z * Sheets)) :
  forall w,
    Py.truthy (SHEET_ID cfg) = true ->
    data (_cache w) = Some d ->
    Forall (fun q => fst q - t (_cache w) < TTL cfg) later ->
    fst (serve cfg later w) = map (fun _ => Ok d) later /\
    calls (snd (serve cfg later w)) = calls w /\
    _cache (snd (serve cfg later w)) = _cache w.
Proof.
  induction later as [ | [now up] rest IH]; intros w Hid Hd Hall; simpl.
  - auto.
  - inversion Hall as [ | q qs Hnow Hrest]; subst; simpl in Hnow.
    rewrite (registrations_hit up (arrive now w) d Hid)
      by (apply cached_inv; simpl; auto).
    specialize (IH (arrive now w) Hid Hd Hrest).
    destruct (serve cfg rest (arrive now w)) as [rs w2]. simpl in *.
    destruct IH as (-> & -> & ->). auto.
Qed.

(** C10.  When the id is configured, a client is resolved and the reply
    has no ["values"] key or an empty list under it, the endpoint answers
    with the empty shape and stores it with the arrival time; the requests
    that arrive less than [TTL] after that are all answered with the empty
    shape and send nothing to the spreadsheet service. *)
Theorem registrations_empty_values_cached (up : Sheets) (w w0 : World)
  (svc : Service) (resp : Resp) (later : list (Z * Sheets)) :
  Py.truthy (SHEET_ID cfg) = true ->
  cached cfg (clock w) (_cache w) = None ->
  sheets_service cfg w = (Val svc, w0) ->
  reply up = Val resp ->
  values resp = None \/ values resp = Some [] ->
  Forall (fun q => fst q - clock w < TTL cfg) later ->
  exists w1,
    registrations cfg up w = (Ok empty_shape, w1) /\
    _cache w1 = {| t := clock w; data := Some empty_shape |} /\
    fst (serve cfg later w1) = map (fun _ => Ok empty_shape) later /\
    calls (snd (serve cfg later w1)) = calls w1.
Proof.
  intros Hid Hc Hs Hr Hv Hall.
  destruct (fetch_values_reply up w w0 svc Hs) as (w2 & Hf & _).
  rewrite Hr in Hf.
  assert (Hnil : match values resp with Some v => v | None => [] end = [])
    by (destruct Hv as [-> | ->]; reflexivity).
  rewrite Hnil in Hf.
  exists (set_t (clock w) (set_data (Some (shape [])) w2)).
  split; [ | split ].
  - rewrite registrations_miss by assumption.
    exact (refresh_ok up (clock w) w w2 [] Hf).
  - reflexivity.
  - destruct (serve_hits empty_shape later
                (set_t (clock w) (set_data (Some (shape [])) w2)) Hid)
      as (H1 & H2 & _); [ reflexivity | exact Hall | ].
    split; assumption.
Qed.

End RegistrationsSpec.

(** ** The photo endpoints *)

Section PhotosSpec.

Context {O : OsLibs}.
Variable cfg : Config.

Lemma is_image_false (file : UploadFile) :
  (forall ct, content_type file = Some ct -> Py.startswith ct "image/" = false) ->
  is_image file = false.
Proof.
  intros H. unfold is_image, Py.if_set.
  destruct (content_type file) as [ct | ]; [ | reflexivity ].
  destruct (Py.truthy ct); [ apply H | ]; reflexivity.
Qed.

(** C8, amended.  An upload whose content type does not start with
    "image/" is refused before anything is sent to the storage service:
    with HTTP 400 when the bucket is configured, with HTTP 500 when it is
    not. *)
Theorem upload_photo_rejects_non_image (st : Storage)
  (today uuid_hex : string) (file : UploadFile) (w : World) :
  (forall ct, content_type file = Some ct -> Py.startswith ct "image/" = false) ->
  upload_photo cfg st today uuid_hex file w =
    (if Py.truthy (BUCKET_NAME cfg)
     then HTTPException 400 "Only image uploads allowed"
     else HTTPException 500 "PHOTOS_BUCKET not set", w).
Proof.
  intros H. unfold upload_photo.
  destruct (Py.truthy (BUCKET_NAME cfg)); simpl; [ | reflexivity ].
  rewrite (is_image_false file H). reflexivity.
Qed.

Lemma In_firstn {A : Type} (k : nat) (l : list A) (x : A) :
  In x (firstn k l) -> In x l.
Proof.
  intros H. rewrite <- (firstn_skipn k l). apply in_or_app. left. exact H.
Qed.

(** The loop returns what it started with followed by the URLs of some
    first few non-directory blobs, in order. *)
Lemma collect_prefix (limit : Z) (blobs : Blobs) :
  forall urls out,
    collect cfg limit blobs urls = Val out ->
    exists k,
      out = (urls ++ map (photo_url cfg) (firstn k (files (blob_names blobs))))%list.
Proof.
  induction blobs as [ | name rest IH | e]; intros urls out H; simpl in H.
  - injection H as <-. exists 0%nat. simpl. rewrite app_nil_r. reflexivity.
  - unfold files; simpl. destruct (Py.endswith name "/"); simpl.
    + apply IH, H.
    + destruct (Py.len (urls ++ [photo_url cfg name]) >=? limit).
      * injection H as <-. exists 1%nat. reflexivity.
      * apply IH in H. destruct H as [k ->]. exists (S k).
        rewrite <- app_assoc. reflexivity.
  - discriminate.
Qed.

(** Entered below the limit, the loop never goes past it. *)
Lemma collect_bound (limit : Z) (blobs : Blobs) :
  forall urls out,
    Py.len urls < limit ->
    collect cfg limit blobs urls = Val out ->
    Py.len out <= limit.
Proof.
  induction blobs as [ | name rest IH | e]; intros urls out Hlt H; simpl in H.
  - injection H as <-. lia.
  - destruct (Py.endswith name "/"); [ eapply IH; eassumption | ].
    destruct (Z.geb_spec (Py.len (urls ++ [photo_url cfg name])) limit) as [Hge | Hlt2].
    + injection H as <-. unfold Py.len in *. rewrite length_app in *. simpl in *. lia.
    + eapply IH; eassumption.
  - discriminate.
Qed.

(** For a limit of at least one the listing has at most that many URLs,
    all of them of blobs whose names do not end in a slash. *)
Lemma list_photos_truncated (st : Storage) (limit : Z) (w w1 : World)
  (out : Listing) :
  1 <= limit ->
  list_photos cfg st limit w = (Ok out, w1) ->
  Py.len (photos out) <= limit /\
  Forall (fun url => exists name,
              url = photo_url cfg name /\
              In name (blob_names (list_blobs st)) /\
              Py.endswith name "/" = false) (photos out).
Proof.
  intros Hlim H. unfold list_photos, gcs_client in H. unfold_m.
  destruct (negb (Py.truthy (BUCKET_NAME cfg))); [ discriminate | ].
  destruct (client st); [ | discriminate ].
  destruct (collect cfg limit (list_blobs st) []) as [urls | e] eqn:Hc;
    [ | discriminate ].
  pair_inv. simpl. split.
  - eapply collect_bound; [ | exact Hc ]. unfold Py.len; simpl; lia.
  - apply collect_prefix in Hc. destruct Hc as [k ->]. simpl.
    apply Forall_forall. intros url Hin.
    apply in_map_iff in Hin. destruct Hin as (name & <- & Hin).
    apply In_firstn in Hin. apply filter_In in Hin. destruct Hin as [Hin Hf].
    exists name. repeat split; [ exact Hin | ].
    destruct (Py.endswith name "/"); [ discriminate | reflexivity ].
Qed.

End PhotosSpec.

(** * The properties at work on the sample process *)

(** Both the file path and the blob are set: the file is used. *)
Example sheets_service_file_first :
  sheets_service (G := Sample.libs) Sample.cfg Sample.start =
    (Val "sa", logged "Using credentials file: /secrets/sa.json" Sample.start).
Proof. reflexivity. Qed.

(** A file that cannot be read is an error although the blob is fine. *)
Example sheets_service_no_fallback :
  fst (sheets_service (G := Sample.libs)
         {| SHEET_ID := "sheet-1"; RANGE := "A1:Z"; BUCKET_NAME := ""; TTL := 30;
            GOOGLE_APPLICATION_CREDENTIALS := Some "/missing.json";
            GOOGLE_APPLICATION_CREDENTIALS_B64 := Some "e30=";
            GOOGLE_APPLICATION_CREDENTIALS_JSON := Some "{}" |} Sample.start) =
    Exn "No such file".
Proof. reflexivity. Qed.

(** Only the blob and the inline JSON are set: the blob is used. *)
Example sheets_service_blob_second :
  sheets_service (G := Sample.libs)
    {| SHEET_ID := "sheet-1"; RANGE := "A1:Z"; BUCKET_NAME := ""; TTL := 30;
       GOOGLE_APPLICATION_CREDENTIALS := None;
       GOOGLE_APPLICATION_CREDENTIALS_B64 := Some "e30=";
       GOOGLE_APPLICATION_CREDENTIALS_JSON := Some "{}" |} Sample.start =
    (Val "{}", logged "Using base64 credentials from env" Sample.start).
Proof. reflexivity. Qed.

Lemma registrations_fresh_hit_witness :
  Py.truthy (SHEET_ID Sample.cfg) = true /\
  129 - t (_cache (snd Sample.first)) < TTL Sample.cfg /\
  registrations (G := Sample.libs) Sample.cfg Sample.sheet_down
    (arrive 129 (snd Sample.first)) =
    (Ok (shape Sample.table), arrive 129 (snd Sample.first)) /\
  calls (snd (registrations (G := Sample.libs) Sample.cfg Sample.sheet_down
                (arrive 129 (snd Sample.first)))) =
    calls (snd Sample.first).
Proof.
  split; [ reflexivity | ]. split; [ vm_compute; reflexivity | ].
  apply (registrations_fresh_hit (G := Sample.libs) Sample.cfg
           Sample.sheet Sample.sheet_down Sample.start (snd Sample.first)
           (shape Sample.table) 129).
  - reflexivity.
  - reflexivity.
  - vm_compute; reflexivity.
Defined.

(** C1.  The sample sheet answers at second 105 a request that arrived
    at second 100.  A second call at second 131 comes 26 seconds after
    that successful refresh, less than the [TTL] of 30, and yet it is not
    served from the cache: it sends a second read, which fails, and the
    caller gets 502 instead of the stored value. *)
Lemma registrations_refresh_inside_ttl_of_completion :
  fst Sample.first = Ok (shape Sample.table) /\
  clock (snd Sample.first) = 105 /\
  data (_cache (snd Sample.first)) = Some (shape Sample.table) /\
  0 < TTL Sample.cfg /\
  131 - clock (snd Sample.first) < TTL Sample.cfg /\
  fst (registrations (G := Sample.libs) Sample.cfg Sample.sheet_down
         (arrive 131 (snd Sample.first))) =
    HTTPException 502 "Sheets fetch failed: HttpError 503" /\
  fst (registrations (G := Sample.libs) Sample.cfg Sample.sheet_down
         (arrive 131 (snd Sample.first))) <> fst Sample.first /\
  calls (snd (registrations (G := Sample.libs) Sample.cfg Sample.sheet_down
                (arrive 131 (snd Sample.first)))) =
    [SheetsGet "sheet-1" "Form Responses 1!A1:Z";
     SheetsGet "sheet-1" "Form Responses 1!A1:Z"].
Proof.
  repeat split; try reflexivity. vm_compute. discriminate.
Qed.

Lemma registrations_refresh_failure_witness :
  registrations (G := Sample.libs) Sample.cfg Sample.sheet_down
    (arrive 130 (snd Sample.first)) =
    (HTTPException 502 "Sheets fetch failed: HttpError 503",
     snd (fetch_values (G := Sample.libs) Sample.cfg Sample.sheet_down
            (arrive 130 (snd Sample.first)))) /\
  _cache (snd (fetch_values (G := Sample.libs) Sample.cfg Sample.sheet_down
                 (arrive 130 (snd Sample.first)))) =
    {| t := 100; data := Some (shape Sample.table) |}.
Proof.
  apply (registrations_refresh_failure (G := Sample.libs) Sample.cfg
           Sample.sheet_down (arrive 130 (snd Sample.first)) _
           "HttpError 503"); reflexivity.
Defined.

Lemma registrations_boundary_refresh_witness :
  clock (arrive 130 (snd Sample.first))
    - t (_cache (arrive 130 (snd Sample.first))) = TTL Sample.cfg /\
  registrations (G := Sample.libs) Sample.cfg Sample.sheet
    (arrive 130 (snd Sample.first)) =
    refresh (G := Sample.libs) Sample.cfg Sample.sheet 130
      (arrive 130 (snd Sample.first)).
Proof.
  split; [ reflexivity | ].
  apply (registrations_boundary_refresh (G := Sample.libs) Sample.cfg
           Sample.sheet (arrive 130 (snd Sample.first)));
    reflexivity.
Defined.

Lemma registrations_refresh_success_witness :
  exists w2,
    Sample.first = (Ok (shape Sample.table), w2) /\
    _cache w2 = {| t := 100; data := Some (shape Sample.table) |} /\
    clock w2 = 100 + 5.
Proof.
  apply (registrations_refresh_success (G := Sample.libs) Sample.cfg
           Sample.sheet Sample.start
           (snd (fetch_values (G := Sample.libs) Sample.cfg Sample.sheet
                   Sample.start))
           Sample.table); reflexivity.
Defined.

(** C4.  The sample sheet answers five seconds after the request arrived
    at second 100: the refresh succeeds at second 105, and the timestamp
    stored is 100, the arrival time. *)
Lemma registrations_timestamp_is_arrival_time :
  fst Sample.first = Ok (shape Sample.table) /\
  clock Sample.start = 100 /\
  clock (snd Sample.first) = 105 /\
  t (_cache (snd Sample.first)) = 100 /\
  t (_cache (snd Sample.first)) <> clock (snd Sample.first).
Proof. repeat split; try reflexivity. vm_compute. discriminate. Qed.

Lemma registrations_disabled_witness :
  SHEET_ID Sample.bare = "" /\
  registrations (G := Sample.libs) Sample.bare Sample.sheet Sample.start =
    (Ok empty_shape, Sample.start).
Proof.
  split; [ reflexivity | ].
  apply (registrations_disabled (G := Sample.libs) Sample.bare Sample.sheet
           Sample.start).
  reflexivity.
Defined.

Lemma registrations_shape_witness :
  fst Sample.first =
    Ok {| headers := ["Name"; "Age"];
          rows := [["Ada"; "30"]; ["Li"; "25"]];
          count := 2 |}.
Proof.
  apply (proj1 (registrations_shape (G := Sample.libs) Sample.cfg)
           Sample.sheet Sample.start
           (snd (fetch_values (G := Sample.libs) Sample.cfg Sample.sheet
                   Sample.start))
           ["Name"; "Age"] [["Ada"; "30"]; ["Li"; "25"]]); reflexivity.
Defined.

Lemma registrations_empty_values_cached_witness :
  exists w1,
    registrations (G := Sample.libs) Sample.cfg Sample.blank_sheet Sample.start =
      (Ok empty_shape, w1) /\
    _cache w1 = {| t := 100; data := Some empty_shape |} /\
    fst (serve (G := Sample.libs) Sample.cfg
           [(110, Sample.sheet); (129, Sample.sheet_down)] w1) =
      [Ok empty_shape; Ok empty_shape] /\
    calls (snd (serve (G := Sample.libs) Sample.cfg
                  [(110, Sample.sheet); (129, Sample.sheet_down)] w1)) =
      calls w1.
Proof.
  apply (registrations_empty_values_cached (G := Sample.libs) Sample.cfg
           Sample.blank_sheet Sample.start
           (logged "Using credentials file: /secrets/sa.json" Sample.start)
           "sa" {| values := None |}
           [(110, Sample.sheet); (129, Sample.sheet_down)]).
  - reflexivity.
  - reflexivity.
  - reflexivity.
  - reflexivity.
  - left; reflexivity.
  - repeat constructor.
Defined.

Lemma upload_photo_rejects_non_image_witness :
  Py.startswith "text/plain" "image/" = false /\
  upload_photo (O := Sample.os) Sample.cfg (Sample.bucket Done)
    "2024/01/02" "0123456789abcdef0123456789abcdef" Sample.note Sample.start =
    (HTTPException 400 "Only image uploads allowed", Sample.start).
Proof.
  split; [ reflexivity | ].
  apply (upload_photo_rejects_non_image (O := Sample.os) Sample.cfg
           (Sample.bucket Done) "2024/01/02"
           "0123456789abcdef0123456789abcdef" Sample.note Sample.start).
  intros ct [= <-]. reflexivity.
Defined.

(** C8.  A text upload to a process without [PHOTOS_BUCKET] is answered
    with HTTP 500, not 400. *)
Lemma upload_photo_unconfigured_is_500 :
  content_type Sample.note = Some "text/plain" /\
  Py.startswith "text/plain" "image/" = false /\
  upload_photo (O := Sample.os) Sample.bare (Sample.bucket Done)
    "2024/01/02" "0123456789abcdef0123456789abcdef" Sample.note Sample.start =
    (HTTPException 500 "PHOTOS_BUCKET not set", Sample.start) /\
  status (fst (upload_photo (O := Sample.os) Sample.bare (Sample.bucket Done)
                 "2024/01/02" "0123456789abcdef0123456789abcdef"
                 Sample.note Sample.start)) <> 400.
Proof. repeat split; try reflexivity. vm_compute. discriminate. Qed.

(** C9.  With [limit=0] and two photos in the bucket, the listing holds
    one URL: the length is compared with the limit only after the URL has
    been appended. *)
Theorem list_photos_limit_zero :
  fst (list_photos Sample.cfg (Sample.bucket Sample.two_photos) 0 Sample.start) =
    Ok {| ok := true;
          photos :=
            ["https://storage.googleapis.com/labamba-photos/uploads/a.jpg"] |} /\
  ~ Py.len ["https://storage.googleapis.com/labamba-photos/uploads/a.jpg"] <= 0.
Proof. split; [ reflexivity | unfold Py.len; simpl; lia ]. Qed.

(** With the default limit the same bucket lists both photos and skips
    the directory entry. *)
Example list_photos_default :
  fst (list_photos Sample.cfg (Sample.bucket Sample.two_photos) default_limit
         Sample.start) =
    Ok {| ok := true;
          photos :=
            ["https://storage.googleapis.com/labamba-photos/uploads/a.jpg";
             "https://storage.googleapis.com/labamba-photos/uploads/b.jpg"] |}.
Proof. reflexivity. Qed.

(** * Further properties of the handlers *)

(** ** The registrations endpoint as a whole *)

Section RegistrationsFootprint.

Context {G : GoogleLibs}.
Variable cfg : Config.

Lemma fetch_values_calls (up : Sheets) (w : World) :
  sent [] w (snd (fetch_values cfg up w)) \/
  sent [SheetsGet (SHEET_ID cfg) (RANGE cfg)] w (snd (fetch_values cfg up w)).
Proof.
  destruct (sheets_service cfg w) as [[svc | e] w0] eqn:Hs;
    pose proof (sheets_service_frame cfg _ _ _ Hs) as (_ & _ & Hl);
    [ right | left ];
    unfold sent, fetch_values, execute; unfold_m; rewrite Hs; simpl.
  - destruct (reply up); simpl; congruence.
  - rewrite app_nil_r. exact Hl.
Qed.

(** X1.  One request to the endpoint sends nothing, or one read of
    [RANGE] in [SHEET_ID], and nothing else. *)
Theorem registrations_sends_at_most_one_read (up : Sheets) (w : World) :
  sent [] w (snd (registrations cfg up w)) \/
  sent [SheetsGet (SHEET_ID cfg) (RANGE cfg)] w (snd (registrations cfg up w)).
Proof.
  unfold registrations.
  destruct (negb (Py.truthy (SHEET_ID cfg))).
  { left. unfold sent. simpl. rewrite app_nil_r. reflexivity. }
  simpl. destruct (cached cfg (clock w) (_cache w)).
  { left. unfold sent. simpl. rewrite app_nil_r. reflexivity. }
  unfold refresh. pose proof (fetch_values_calls up w) as H.
  destruct (fetch_values cfg up w) as [[vals | e] w1]; exact H.
Qed.

(** X2.  The cache is written only together with a successful answer:
    after a request it is as it was, or it holds exactly the dict just
    answered, under the clock reading of the request's arrival. *)
Theorem registrations_cache_transition (up : Sheets) (w : World) :
  _cache (snd (registrations cfg up w)) = _cache w \/
  exists vals,
    fst (registrations cfg up w) = Ok (shape vals) /\
    _cache (snd (registrations cfg up w)) =
      {| t := clock w; data := Some (shape vals) |}.
Proof.
  unfold registrations.
  destruct (negb (Py.truthy (SHEET_ID cfg))); [ left; reflexivity | ].
  simpl. destruct (cached cfg (clock w) (_cache w)); [ left; reflexivity | ].
  unfold refresh.
  destruct (fetch_values cfg up w) as [[vals | e] w1] eqn:Hf; simpl.
  - right. exists vals. split; reflexivity.
  - left. eapply fetch_values_cache, Hf.
Qed.

(** X3.  The endpoint answers 200 or 502, never another status; a 502
    carries the text of the exception after "Sheets fetch failed: ". *)
Theorem registrations_status (up : Sheets) (w : World) :
  (exists body, fst (registrations cfg up w) = Ok body) \/
  (exists e,
      fst (registrations cfg up w) =
        HTTPException 502 ("Sheets fetch failed: " ++ e)).
Proof.
  unfold registrations.
  destruct (negb (Py.truthy (SHEET_ID cfg))); [ left; eexists; reflexivity | ].
  simpl. destruct (cached cfg (clock w) (_cache w));
    [ left; eexists; reflexivity | ].
  unfold refresh.
  destruct (fetch_values cfg up w) as [[vals | e] w1]; simpl;
    [ left | right ]; eexists; reflexivity.
Qed.

(** X4.  With a spreadsheet id but no credential variable set to a
    non-empty value, a request the cache cannot answer fails with 502, not
    500, and nothing is sent, logged or stored. *)
Theorem registrations_without_credentials (up : Sheets) (w : World) :
  Py.truthy (SHEET_ID cfg) = true ->
  cached cfg (clock w) (_cache w) = None ->
  Py.if_set (GOOGLE_APPLICATION_CREDENTIALS cfg) = None ->
  Py.if_set (GOOGLE_APPLICATION_CREDENTIALS_B64 cfg) = None ->
  Py.if_set (GOOGLE_APPLICATION_CREDENTIALS_JSON cfg) = None ->
  registrations cfg up w =
    (HTTPException 502 "Sheets fetch failed: No Google credentials provided", w).
Proof.
  intros Hid Hc Hf Hb Hj. rewrite registrations_miss by assumption.
  unfold refresh, fetch_values, sheets_service. rewrite Hf, Hb, Hj.
  reflexivity.
Qed.

(** X5.  A request that refreshes the cache and the requests arriving
    less than [TTL] after it all get the same answer, and the whole burst
    costs one read. *)
Theorem registrations_burst (up : Sheets) (w w1 : World) (now : Z)
  (vals : list (list string)) (later : list (Z * Sheets)) :
  Py.truthy (SHEET_ID cfg) = true ->
  cached cfg now (_cache w) = None ->
  fetch_values cfg up (arrive now w) = (Val vals, w1) ->
  Forall (fun q => fst q - now < TTL cfg) later ->
  fst (serve cfg ((now, up) :: later) w) =
    Ok (shape vals) :: map (fun _ => Ok (shape vals)) later /\
  sent [SheetsGet (SHEET_ID cfg) (RANGE cfg)] w
    (snd (serve cfg ((now, up) :: later) w)).
Proof.
  intros Hid Hc Hf Hall. cbn [serve].
  rewrite (registrations_miss cfg up (arrive now w) Hid Hc).
  cbn [arrive clock]. rewrite (refresh_ok cfg up now _ _ _ Hf).
  destruct (serve_hits cfg (shape vals) later
              (set_t now (set_data (Some (shape vals)) w1)) Hid)
    as (H1 & H2 & _); [ reflexivity | exact Hall | ].
  destruct (serve cfg later (set_t now (set_data (Some (shape vals)) w1)))
    as [rs w2].
  simpl in *. split; [ congruence | ].
  unfold sent. rewrite H2. apply fetch_values_val in Hf. tauto.
Qed.

(** X6.  A failure is not remembered: after a request answered with an
    error, a request that arrives no earlier goes upstream again. *)
Theorem registrations_retry_after_failure (up1 up2 : Sheets) (w w1 : World)
  (code : Z) (detail : string) (now2 : Z) :
  Py.truthy (SHEET_ID cfg) = true ->
  registrations cfg up1 w = (HTTPException code detail, w1) ->
  clock w <= now2 ->
  registrations cfg up2 (arrive now2 w1) =
    refresh cfg up2 now2 (arrive now2 w1).
Proof.
  intros Hid H Hlate.
  assert (Hstale : cached cfg (clock w) (_cache w) = None /\ _cache w1 = _cache w).
  { unfold registrations in H. rewrite Hid in H. simpl in H.
    destruct (cached cfg (clock w) (_cache w)); [ discriminate | ].
    split; [ reflexivity | ]. unfold refresh in H.
    destruct (fetch_values cfg up1 w) as [[vals | e] w2] eqn:Hf;
      [ discriminate | ].
    pair_inv. eapply fetch_values_cache, Hf. }
  destruct Hstale as [Hc Hsame].
  apply (registrations_miss cfg up2 (arrive now2 w1) Hid).
  cbn [arrive clock _cache]. rewrite Hsame.
  unfold cached in *. destruct (data (_cache w)); [ | reflexivity ].
  destruct (Z.ltb_spec (clock w - t (_cache w)) (TTL cfg)); [ discriminate | ].
  destruct (Z.ltb_spec (now2 - t (_cache w)) (TTL cfg)); [ lia | reflexivity ].
Qed.

End RegistrationsFootprint.

(** X7.  The answer keeps the sheet: a non-empty list of rows is the
    headers followed by the rows of its shape.  The empty shape stands
    for two sheets, the one without rows and the one whose only row is
    empty. *)
Theorem shape_keeps_rows (vals : list (list string)) :
  (vals <> [] -> headers (shape vals) :: rows (shape vals) = vals) /\
  (shape vals = empty_shape <-> vals = [] \/ vals = [[]]).
Proof.
  split.
  - destruct vals; [ congruence | reflexivity ].
  - destruct vals as [ | h rest]; simpl.
    + split; auto.
    + split.
      * unfold empty_shape. intros [= -> ->]. right; reflexivity.
      * intros [H | H]; [ discriminate | ]. injection H as -> ->. reflexivity.
Qed.

(** ** The credential resolver as a whole *)

Section ResolverFootprint.

Context {G : GoogleLibs}.

(** X8.  Resolving credentials is local: it does not advance the clock,
    write the cache or send a request, and it logs at most one line. *)
Theorem sheets_service_local (cfg : Config) (w : World) :
  clock (snd (sheets_service cfg w)) = clock w /\
  _cache (snd (sheets_service cfg w)) = _cache w /\
  calls (snd (sheets_service cfg w)) = calls w /\
  (log (snd (sheets_service cfg w)) = log w \/
   exists line, log (snd (sheets_service cfg w)) = (log w ++ [line])%list).
Proof.
  unfold sheets_service; unfold_m.
  repeat break_match; simpl; repeat split; eauto.
Qed.

(** X9.  The resolver sees the environment only through the non-empty
    values: two environments that agree on those, one leaving a variable
    unset where the other sets it to the empty string, resolve alike. *)
Theorem sheets_service_empty_as_unset (cfg1 cfg2 : Config) (w : World) :
  Py.if_set (GOOGLE_APPLICATION_CREDENTIALS cfg1) =
    Py.if_set (GOOGLE_APPLICATION_CREDENTIALS cfg2) ->
  Py.if_set (GOOGLE_APPLICATION_CREDENTIALS_B64 cfg1) =
    Py.if_set (GOOGLE_APPLICATION_CREDENTIALS_B64 cfg2) ->
  Py.if_set (GOOGLE_APPLICATION_CREDENTIALS_JSON cfg1) =
    Py.if_set (GOOGLE_APPLICATION_CREDENTIALS_JSON cfg2) ->
  sheets_service cfg1 w = sheets_service cfg2 w.
Proof.
  intros Hf Hb Hj. unfold sheets_service. rewrite Hf, Hb, Hj. reflexivity.
Qed.


End ResolverFootprint.

(** ** The photo endpoints as a whole *)

Section PhotosFootprint.

Context {O : OsLibs}.
Variable cfg : Config.

(** The loop, in closed form: it stops after the URL that brings the list
    to the limit, and after the first one at the latest. *)
Lemma collect_exact (limit : Z) (blobs : Blobs) :
  forall urls,
    collect cfg limit blobs urls =
      if (Z.to_nat (Z.max 1 (limit - Py.len urls))
            <=? List.length (files (blob_names blobs)))%nat
      then Val (urls ++ map (photo_url cfg)
                         (firstn (Z.to_nat (Z.max 1 (limit - Py.len urls)))
                            (files (blob_names blobs))))%list
      else match broken blobs with
           | Some e => Exn e
           | None => Val (urls ++ map (photo_url cfg) (files (blob_names blobs)))%list
           end.
Proof.
  induction blobs as [ | name rest IH | e]; intros urls; simpl.
  - destruct (Nat.leb_spec (Z.to_nat (Z.max 1 (limit - Py.len urls))) 0);
      [ lia | ]. rewrite app_nil_r. reflexivity.
  - unfold files in *; simpl.
    destruct (Py.endswith name "/"); simpl; [ apply IH | ].
    assert (Hlen : Py.len (urls ++ [photo_url cfg name]) = Py.len urls + 1)
      by (unfold Py.len; rewrite length_app; simpl; lia).
    destruct (Z.geb_spec (Py.len (urls ++ [photo_url cfg name])) limit) as [Hge | Hlt].
    + replace (Z.to_nat (Z.max 1 (limit - Py.len urls))) with 1%nat by lia.
      reflexivity.
    + rewrite IH, Hlen.
      replace (Z.to_nat (Z.max 1 (limit - Py.len urls)))
        with (S (Z.to_nat (Z.max 1 (limit - (Py.len urls + 1))))) by lia.
      simpl. rewrite <- !app_assoc. reflexivity.
  - destruct (Nat.leb_spec (Z.to_nat (Z.max 1 (limit - Py.len urls))) 0);
      [ lia | reflexivity ].
Qed.

Lemma firstn_short {A : Type} (k : nat) (l : list A) :
  (k <=? List.length l)%nat = false -> firstn k l = l.
Proof.
  intros H. apply firstn_all2. destruct (Nat.leb_spec k (List.length l)); [ discriminate | lia ].
Qed.

(** X11.  When the listing loads to its end, the answer is the URLs of
    the first [limit] blobs that are not directory entries, in the order
    listed; a limit below one counts as one. *)
Theorem list_photos_exact (st : Storage) (limit : Z) (w : World) :
  Py.truthy (BUCKET_NAME cfg) = true ->
  client st = Val tt ->
  broken (list_blobs st) = None ->
  fst (list_photos cfg st limit w) =
    Ok {| ok := true;
          photos :=
            map (photo_url cfg)
              (firstn (Z.to_nat (Z.max 1 limit))
                 (files (blob_names (list_blobs st)))) |}.
Proof.
  intros Hb Hc Hn. unfold list_photos, gcs_client; unfold_m.
  rewrite Hb, Hc. simpl. rewrite collect_exact, Hn. simpl.
  replace (limit - Py.len (@nil string)) with limit by (unfold Py.len; simpl; lia).
  destruct (Z.to_nat (Z.max 1 limit) <=? List.length (files (blob_names (list_blobs st))))%nat
    eqn:Hk; simpl; [ reflexivity | ].
  rewrite (firstn_short _ _ Hk). reflexivity.
Qed.

(** X12.  A page that fails to load fails the request with 500 only when
    it is reached: with [limit] photos listed before it, the loop has
    stopped and the answer is those photos. *)
Theorem list_photos_broken_listing (st : Storage) (limit : Z) (w : World)
  (e : string) :
  Py.truthy (BUCKET_NAME cfg) = true ->
  client st = Val tt ->
  broken (list_blobs st) = Some e ->
  fst (list_photos cfg st limit w) =
    if (Z.to_nat (Z.max 1 limit)
          <=? List.length (files (blob_names (list_blobs st))))%nat
    then Ok {| ok := true;
               photos :=
                 map (photo_url cfg)
                   (firstn (Z.to_nat (Z.max 1 limit))
                      (files (blob_names (list_blobs st)))) |}
    else HTTPException 500 ("List failed: " ++ e).
Proof.
  intros Hb Hc He. unfold list_photos, gcs_client; unfold_m.
  rewrite Hb, Hc. simpl. rewrite collect_exact, He. simpl.
  replace (limit - Py.len (@nil string)) with limit by (unfold Py.len; simpl; lia).
  destruct (Z.to_nat (Z.max 1 limit) <=? List.length (files (blob_names (list_blobs st))))%nat;
    reflexivity.
Qed.

(** X13.  Listing only reads: it sends nothing, or creates a client, or
    creates a client and lists under "uploads/"; it never uploads or
    publishes, leaves the registrations cache alone, and answers 200 or
    500. *)
Theorem list_photos_footprint (st : Storage) (limit : Z) (w : World) :
  (sent [] w (snd (list_photos cfg st limit w)) \/
   sent [StorageClient] w (snd (list_photos cfg st limit w)) \/
   sent [StorageClient; StorageListBlobs (BUCKET_NAME cfg) "uploads/"] w
     (snd (list_photos cfg st limit w))) /\
  _cache (snd (list_photos cfg st limit w)) = _cache w /\
  (status (fst (list_photos cfg st limit w)) = 200 \/
   status (fst (list_photos cfg st limit w)) = 500).
Proof.
  unfold list_photos, gcs_client, sent; unfold_m.
  destruct (negb (Py.truthy (BUCKET_NAME cfg))); simpl.
  { rewrite app_nil_r. auto. }
  destruct (client st); simpl; [ | auto ].
  destruct (collect cfg limit (list_blobs st) []); simpl;
    rewrite <- app_assoc; simpl; auto.
Qed.

End PhotosFootprint.

Lemma string_append_assoc (a b c : string) : (a ++ b) ++ c = a ++ b ++ c.
Proof. induction a as [ | x a IH]; simpl; [ | rewrite IH ]; reflexivity. Qed.

Lemma prefix_append (a b : string) : String.prefix a (a ++ b) = true.
Proof.
  induction a as [ | x a IH]; simpl.
  - destruct b; reflexivity.
  - destruct (Ascii.ascii_dec x x); [ exact IH | congruence ].
Qed.

Section UploadFootprint.

Context {O : OsLibs}.
Variable cfg : Config.

Lemma key_split (today uuid_hex ext : string) :
  "uploads/" ++ today ++ "/" ++ uuid_hex ++ ext =
  ("uploads/" ++ today ++ "/" ++ uuid_hex) ++ ext.
Proof.
  simpl. rewrite string_append_assoc. reflexivity.
Qed.

Lemma is_image_content_type (file : UploadFile) :
  is_image file = true ->
  exists ct,
    content_type file = Some ct /\
    Py.or_else (content_type file) "" = ct /\
    Py.startswith ct "image/" = true.
Proof.
  unfold is_image, Py.or_else, Py.if_set.
  destruct (content_type file) as [ct | ]; [ | discriminate ].
  destruct (Py.truthy ct); [ | discriminate ].
  intros H. exists ct. auto.
Qed.

(** X14.  An image accepted by a working bucket is uploaded under a key
    below "uploads/", with the content type the client sent, and then
    made public; the answer carries that same key and its public URL. *)
Theorem upload_photo_stored (st : Storage) (today uuid_hex : string)
  (file : UploadFile) (w : World) :
  Py.truthy (BUCKET_NAME cfg) = true ->
  is_image file = true ->
  client st = Val tt ->
  upload_from_string st = Val tt ->
  make_public st = Val tt ->
  exists key ct,
    content_type file = Some ct /\
    Py.startswith key ("uploads/" ++ today ++ "/" ++ uuid_hex) = true /\
    fst (upload_photo cfg st today uuid_hex file w) =
      Ok {| up_ok := true;
            up_url := public_url st (BUCKET_NAME cfg) key;
            up_key := key |} /\
    sent [StorageClient;
          StorageUpload (BUCKET_NAME cfg) key ct;
          StorageMakePublic (BUCKET_NAME cfg) key] w
      (snd (upload_photo cfg st today uuid_hex file w)).
Proof.
  intros Hb Hi Hc Hu Hp.
  destruct (is_image_content_type file Hi) as (ct & Hct & Hor & _).
  exists ("uploads/" ++ today ++ "/" ++ uuid_hex
            ++ Py.or_str (lower (splitext_ext (Py.or_else (filename file) "")))
                 ".jpg").
  exists ct. split; [ exact Hct | ].
  split; [ unfold Py.startswith; rewrite key_split; apply prefix_append | ].
  unfold upload_photo, gcs_client, sent; unfold_m.
  rewrite Hb, Hi, Hc, Hu, Hp, Hor. simpl.
  split; [ reflexivity | ].
  rewrite <- !app_assoc. reflexivity.
Qed.

(** X15.  When the object is stored but cannot be made public, the
    caller gets 500 with the exception's text, and the stored object is
    left in the bucket: the upload was sent and nothing takes it back. *)
Theorem upload_photo_publish_failure (st : Storage) (today uuid_hex : string)
  (file : UploadFile) (w : World) (e : string) :
  Py.truthy (BUCKET_NAME cfg) = true ->
  is_image file = true ->
  client st = Val tt ->
  upload_from_string st = Val tt ->
  make_public st = Exn e ->
  fst (upload_photo cfg st today uuid_hex file w) =
    HTTPException 500 ("Upload failed: " ++ e) /\
  exists key ct,
    content_type file = Some ct /\
    sent [StorageClient;
          StorageUpload (BUCKET_NAME cfg) key ct;
          StorageMakePublic (BUCKET_NAME cfg) key] w
      (snd (upload_photo cfg st today uuid_hex file w)).
Proof.
  intros Hb Hi Hc Hu Hp.
  destruct (is_image_content_type file Hi) as (ct & Hct & Hor & _).
  unfold upload_photo, gcs_client, sent; unfold_m.
  rewrite Hb, Hi, Hc, Hu, Hp, Hor. simpl.
  split; [ reflexivity | ].
  eexists. exists ct. split; [ exact Hct | ].
  rewrite <- !app_assoc. reflexivity.
Qed.

(** X16.  A file whose name has no extension, or that has no name, is
    stored under a key ending in ".jpg". *)
Theorem upload_photo_default_extension (st : Storage)
  (today uuid_hex : string) (file : UploadFile) (w : World) :
  Py.truthy (BUCKET_NAME cfg) = true ->
  is_image file = true ->
  client st = Val tt ->
  upload_from_string st = Val tt ->
  make_public st = Val tt ->
  lower (splitext_ext (Py.or_else (filename file) "")) = "" ->
  fst (upload_photo cfg st today uuid_hex file w) =
    Ok {| up_ok := true;
          up_url :=
            public_url st (BUCKET_NAME cfg)
              ("uploads/" ++ today ++ "/" ++ uuid_hex ++ ".jpg");
          up_key := "uploads/" ++ today ++ "/" ++ uuid_hex ++ ".jpg" |}.
Proof.
  intros Hb Hi Hc Hu Hp Hext.
  unfold upload_photo, gcs_client; unfold_m.
  rewrite Hb, Hi, Hc, Hu, Hp, Hext. reflexivity.
Qed.

End UploadFootprint.

(** ** The checkout endpoint *)

(** X17.  With a key configured, one session request is sent, for one
    item priced in ore at a hundred times the amount in kronor, whatever
    integer that amount is; the price sent is a whole number of kronor
    and gives the amount back. *)
Theorem checkout_amount_in_ore (shop : ShopConfig)
  (stripe : SessionCreate -> Exc string) (body : CheckoutIn) (key : string) :
  Py.if_set (STRIPE_SECRET_KEY shop) = Some key ->
  exists request item,
    snd (create_checkout_session shop stripe body) = [request] /\
    line_items request = [item] /\
    currency item = "sek" /\
    quantity item = 1 /\
    unit_amount item = 100 * amount_sek body /\
    unit_amount item mod 100 = 0 /\
    unit_amount item / 100 = amount_sek body.
Proof.
  intros Hk. unfold create_checkout_session. rewrite Hk.
  assert (Hmod : (amount_sek body * 100) mod 100 = 0) by (apply Z.mod_mul; lia).
  assert (Hdiv : amount_sek body * 100 / 100 = amount_sek body)
    by (apply Z.div_mul; lia).
  destruct (stripe _); do 2 eexists;
    (split; [ reflexivity | ]); (split; [ reflexivity | ]);
    cbn [currency quantity unit_amount];
    (split; [ reflexivity | ]); (split; [ reflexivity | ]);
    (split; [ lia | ]); split; assumption.
Qed.

(** X18.  The checkout answers 500 exactly when no key is configured, and
    then sends nothing; otherwise it sends one request and answers 200
    with the session id, or 502 with the provider's error. *)
Theorem checkout_outcomes (shop : ShopConfig)
  (stripe : SessionCreate -> Exc string) (body : CheckoutIn) :
  (Py.if_set (STRIPE_SECRET_KEY shop) = None /\
   create_checkout_session shop stripe body =
     (HTTPException 500 "Stripe not configured", [])) \/
  (exists key request,
      Py.if_set (STRIPE_SECRET_KEY shop) = Some key /\
      snd (create_checkout_session shop stripe body) = [request] /\
      fst (create_checkout_session shop stripe body) =
        match stripe request with
        | Val id => Ok {| sessionId := id |}
        | Exn e => HTTPException 502 ("Stripe error: " ++ e)
        end).
Proof.
  unfold create_checkout_session.
  destruct (Py.if_set (STRIPE_SECRET_KEY shop)) as [key | ].
  - right. exists key. eexists. split; [ reflexivity | ].
    match goal with |- context [stripe ?r] => destruct (stripe r) eqn:Hs end;
      simpl; rewrite Hs; split; reflexivity.
  - left. split; reflexivity.
Qed.

(** ** These properties at work on the sample process *)

Lemma registrations_without_credentials_witness :
  Py.if_set (GOOGLE_APPLICATION_CREDENTIALS_B64 Fixtures.no_credentials) = None /\
  registrations (G := Sample.libs) Fixtures.no_credentials Sample.sheet
    Sample.start =
    (HTTPException 502 "Sheets fetch failed: No Google credentials provided",
     Sample.start).
Proof.
  split; [ reflexivity | ].
  apply (registrations_without_credentials (G := Sample.libs)
           Fixtures.no_credentials Sample.sheet Sample.start); reflexivity.
Defined.

Lemma registrations_burst_witness :
  fst (serve (G := Sample.libs) Sample.cfg
         [(100, Sample.sheet); (110, Sample.sheet_down); (129, Sample.blank_sheet)]
         (initial_world 0)) =
    [Ok (shape Sample.table); Ok (shape Sample.table); Ok (shape Sample.table)] /\
  sent [SheetsGet "sheet-1" "Form Responses 1!A1:Z"] (initial_world 0)
    (snd (serve (G := Sample.libs) Sample.cfg
            [(100, Sample.sheet); (110, Sample.sheet_down);
             (129, Sample.blank_sheet)]
            (initial_world 0))).
Proof.
  apply (registrations_burst (G := Sample.libs) Sample.cfg Sample.sheet
           (initial_world 0)
           (snd (fetch_values (G := Sample.libs) Sample.cfg Sample.sheet
                   (arrive 100 (initial_world 0))))
           100 Sample.table
           [(110, Sample.sheet_down); (129, Sample.blank_sheet)]).
  - reflexivity.
  - reflexivity.
  - reflexivity.
  - repeat constructor.
Defined.

Lemma registrations_retry_after_failure_witness :
  fst (registrations (G := Sample.libs) Sample.cfg Sample.sheet_down Sample.start) =
    HTTPException 502 "Sheets fetch failed: HttpError 503" /\
  registrations (G := Sample.libs) Sample.cfg Sample.sheet
    (arrive 100
       (snd (registrations (G := Sample.libs) Sample.cfg Sample.sheet_down
               Sample.start))) =
    refresh (G := Sample.libs) Sample.cfg Sample.sheet 100
      (arrive 100
         (snd (registrations (G := Sample.libs) Sample.cfg Sample.sheet_down
                 Sample.start))).
Proof.
  split; [ reflexivity | ].
  apply (registrations_retry_after_failure (G := Sample.libs) Sample.cfg
           Sample.sheet_down Sample.sheet Sample.start _ 502
           "Sheets fetch failed: HttpError 503" 100).
  - reflexivity.
  - reflexivity.
  - simpl. lia.
Defined.

Lemma shape_keeps_rows_witness :
  headers (shape Sample.table) :: rows (shape Sample.table) = Sample.table.
Proof.
  apply (proj1 (shape_keeps_rows Sample.table)). discriminate.
Defined.

Lemma sheets_service_empty_as_unset_witness :
  sheets_service (G := Sample.libs) Fixtures.blob_only Sample.start =
  sheets_service (G := Sample.libs)
    {| SHEET_ID := "sheet-1"; RANGE := "A1:Z"; BUCKET_NAME := ""; TTL := 30;
       GOOGLE_APPLICATION_CREDENTIALS := None;
       GOOGLE_APPLICATION_CREDENTIALS_B64 := Some "e30=";
       GOOGLE_APPLICATION_CREDENTIALS_JSON := Some "" |} Sample.start.
Proof.
  apply (sheets_service_empty_as_unset (G := Sample.libs)); reflexivity.
Defined.


Lemma list_photos_exact_witness :
  fst (list_photos Sample.cfg (Sample.bucket Sample.two_photos) 1 Sample.start) =
    Ok {| ok := true;
          photos :=
            ["https://storage.googleapis.com/labamba-photos/uploads/a.jpg"] |}.
Proof.
  apply (list_photos_exact Sample.cfg (Sample.bucket Sample.two_photos) 1
           Sample.start); reflexivity.
Defined.

Lemma list_photos_broken_listing_witness :
  fst (list_photos Sample.cfg (Sample.bucket Fixtures.flaky) 2 Sample.start) =
    Ok {| ok := true;
          photos :=
            ["https://storage.googleapis.com/labamba-photos/uploads/a.jpg";
             "https://storage.googleapis.com/labamba-photos/uploads/b.jpg"] |}.
Proof.
  apply (list_photos_broken_listing Sample.cfg (Sample.bucket Fixtures.flaky) 2
           Sample.start "503 Service Unavailable"); reflexivity.
Defined.

(** With room for a third photo the failing page is reached. *)
Example list_photos_broken_listing_reached :
  fst (list_photos Sample.cfg (Sample.bucket Fixtures.flaky) 3 Sample.start) =
    HTTPException 500 "List failed: 503 Service Unavailable".
Proof. reflexivity. Qed.

Lemma upload_photo_stored_witness :
  exists key ct,
    content_type Fixtures.picture = Some ct /\
    Py.startswith key "uploads/2024/01/02/0123456789abcdef0123456789abcdef" = true /\
    fst (upload_photo (O := Sample.os) Sample.cfg (Sample.bucket Done)
           "2024/01/02" "0123456789abcdef0123456789abcdef" Fixtures.picture
           Sample.start) =
      Ok {| up_ok := true;
            up_url := public_url (Sample.bucket Done) "labamba-photos" key;
            up_key := key |} /\
    sent [StorageClient;
          StorageUpload "labamba-photos" key ct;
          StorageMakePublic "labamba-photos" key] Sample.start
      (snd (upload_photo (O := Sample.os) Sample.cfg (Sample.bucket Done)
              "2024/01/02" "0123456789abcdef0123456789abcdef" Fixtures.picture
              Sample.start)).
Proof.
  apply (upload_photo_stored (O := Sample.os) Sample.cfg (Sample.bucket Done)
           "2024/01/02" "0123456789abcdef0123456789abcdef" Fixtures.picture
           Sample.start); reflexivity.
Defined.

Lemma upload_photo_publish_failure_witness :
  fst (upload_photo (O := Sample.os) Sample.cfg Fixtures.private_bucket
         "2024/01/02" "0123456789abcdef0123456789abcdef" Fixtures.picture
         Sample.start) =
    HTTPException 500 "Upload failed: 403 Forbidden" /\
  exists key ct,
    content_type Fixtures.picture = Some ct /\
    sent [StorageClient;
          StorageUpload "labamba-photos" key ct;
          StorageMakePublic "labamba-photos" key] Sample.start
      (snd (upload_photo (O := Sample.os) Sample.cfg Fixtures.private_bucket
              "2024/01/02" "0123456789abcdef0123456789abcdef" Fixtures.picture
              Sample.start)).
Proof.
  apply (upload_photo_publish_failure (O := Sample.os) Sample.cfg
           Fixtures.private_bucket "2024/01/02"
           "0123456789abcdef0123456789abcdef" Fixtures.picture Sample.start
           "403 Forbidden"); reflexivity.
Defined.

Lemma upload_photo_default_extension_witness :
  fst (upload_photo (O := Sample.os) Sample.cfg (Sample.bucket Done)
         "2024/01/02" "0123456789abcdef0123456789abcdef" Fixtures.unnamed
         Sample.start) =
    Ok {| up_ok := true;
          up_url :=
            "https://storage.googleapis.com/labamba-photos/uploads/2024/01/02/0123456789abcdef0123456789abcdef.jpg";
          up_key := "uploads/2024/01/02/0123456789abcdef0123456789abcdef.jpg" |}.
Proof.
  apply (upload_photo_default_extension (O := Sample.os) Sample.cfg
           (Sample.bucket Done) "2024/01/02"
           "0123456789abcdef0123456789abcdef" Fixtures.unnamed Sample.start);
    reflexivity.
Defined.

Lemma checkout_amount_in_ore_witness :
  exists request item,
    snd (create_checkout_session Fixtures.shop Fixtures.stripe
           {| amount_sek := 250; description := None |}) = [request] /\
    line_items request = [item] /\
    currency item = "sek" /\
    quantity item = 1 /\
    unit_amount item = 100 * 250 /\
    unit_amount item mod 100 = 0 /\
    unit_amount item / 100 = 250.
Proof.
  apply (checkout_amount_in_ore Fixtures.shop Fixtures.stripe
           {| amount_sek := 250; description := None |} "sk_test_1").
  reflexivity.
Defined.

(** An amount below one krona reaches the provider and comes back as 502;
    an unset success URL gets the default, an empty cancel URL is sent as
    it is, and a missing description gets the default product name. *)
Example checkout_zero_amount :
  create_checkout_session Fixtures.shop Fixtures.stripe
    {| amount_sek := 0; description := Some "" |} =
    (HTTPException 502 "Stripe error: Invalid positive integer",
     [{| mode := "payment";
         payment_method_types := ["card"];
         line_items :=
           [{| currency := "sek"; product_name := "Gothrow payment";
               unit_amount := 0; quantity := 1 |}];
         success_url := "https://labambafrisbee.se/gothrow?paid=1";
         cancel_url := "" |}]).
Proof. reflexivity. Qed.
